(** * tom_targets/models.py: the Target record and its visibility calculator

    A shallow embedding of [tom_targets.models.Target]: its field lists, the
    projection [as_dict], the skyfield model selection
    [get_object_instance_for_type] and the sampling loop [get_visibility].

    Python data is embedded as follows.
    - [str] is [string]; an [int] is a [Z]; a [float] is a binary64
      [PrimFloat.float]; [None] in an optional field is [None : option _].
    - A [datetime] is the number of microseconds it lies after
      0001-01-01T00:00:00, as a [Z] between 0 and [datetime_max]; adding a
      [timedelta] raises [OverflowError] when the sum leaves that range.
    - A [dict] is an association list in insertion order, because the order
      of the keys is observable.
    - A call that may raise returns [exn + A]; code that also prints runs in
      the monad [M] below, which keeps the console lines written before a
      failure. *)

From Stdlib Require Import ZArith PrimFloat.
From stdpp Require Import base list strings sets.

Open Scope string_scope.
Open Scope list_scope.
Open Scope Z_scope.

(* Decimal literals are rounded to the nearest binary64, as Python does. *)
#[local] Set Warnings "-inexact-float".

(** ** Python values *)

Definition datetime := Z.

(** The values a model field can hold. *)
Inductive pyval : Type :=
| PyNone
| PyInt (z : Z)
| PyFloat (x : float)
| PyStr (s : string)
| PyDatetime (d : datetime).

Definition py_of_float (o : option float) : pyval :=
  match o with Some x => PyFloat x | None => PyNone end.

Definition py_of_int (o : option Z) : pyval :=
  match o with Some z => PyInt z | None => PyNone end.

Definition py_of_datetime (o : option datetime) : pyval :=
  match o with Some d => PyDatetime d | None => PyNone end.

(** The operands of the [==] tests in the class body: a [str], or the
    builtin class object that the bare name [type] denotes inside a method
    (a method body does not see the class attribute [Target.type]). *)
Inductive pyobj : Type :=
| Str (s : string)
| BuiltinType.

(** [a == b]: two strings compare by content, the class object [type] is
    equal to itself only. *)
Definition py_eq (a b : pyobj) : bool :=
  match a, b with
  | Str x, Str y => bool_decide (x = y)
  | BuiltinType, BuiltinType => true
  | _, _ => false
  end.

(** An insertion-ordered [dict] with [str] keys. *)
Definition pydict : Type := list (string * pyval).

(** [d[k] = v]: an existing key keeps its place, a new key goes last. *)
Fixpoint dict_set (d : pydict) (k : string) (v : pyval) : pydict :=
  match d with
  | [] => [(k, v)]
  | (k', v') :: d' =>
      if decide (k' = k) then (k', v) :: d' else (k', v') :: dict_set d' k v
  end.

Definition keys (d : pydict) : list string := d.*1.

Fixpoint dict_get (d : pydict) (k : string) : option pyval :=
  match d with
  | [] => None
  | (k', v) :: d' => if decide (k' = k) then Some v else dict_get d' k
  end.

(** ** The module-level field lists (models.py, lines 14-26) *)

Definition GLOBAL_TARGET_FIELDS : list string :=
  ["identifier"; "name"; "designation"; "type"].

Definition SIDEREAL_FIELDS : list string :=
  GLOBAL_TARGET_FIELDS ++
  ["ra"; "dec"; "epoch"; "pm_ra"; "pm_dec";
   "galactic_lng"; "galactic_lat"; "distance"; "distance_err"].

Definition NON_SIDEREAL_FIELDS : list string :=
  GLOBAL_TARGET_FIELDS ++
  ["mean_anomaly"; "arg_of_perihelion";
   "lng_asc_node"; "inclination"; "mean_daily_motion"; "semimajor_axis";
   "ephemeris_period"; "ephemeris_period_err"; "ephemeris_epoch";
   "ephemeris_epoch_err"].

(** ** class Target (models.py, lines 29-60) *)

Definition SIDEREAL : string := "SIDEREAL".
Definition NON_SIDEREAL : string := "NON_SIDEREAL".

(** One row of the table. [id] is the primary key Django adds to a model
    that declares none; it is unset until the row is saved. The float
    columns are declared [null=True]. *)
Record Target : Type := {
  id : option Z;
  identifier : string;
  name : string;
  type : string;
  designation : string;
  created : option datetime;
  modified : option datetime;
  ra : option float;
  dec : option float;
  epoch : option float;
  parallax : option float;
  pm_ra : option float;
  pm_dec : option float;
  galactic_lng : option float;
  galactic_lat : option float;
  distance : option float;
  distance_err : option float;
  mean_anomaly : option float;
  arg_of_perihelion : option float;
  eccentricity : option float;
  lng_asc_node : option float;
  inclination : option float;
  mean_daily_motion : option float;
  semimajor_axis : option float;
  ephemeris_period : option float;
  ephemeris_period_err : option float;
  ephemeris_epoch : option float;
  ephemeris_epoch_err : option float
}.

(** The grouping of the float columns by kind of target. The class body
    does not group them; these two lists follow the data model of the
    specification (sidereal parameters, orbital parameters), and serve only
    to state what the field lists cover. *)
Definition sidereal_parameters : list string :=
  ["ra"; "dec"; "epoch"; "parallax"; "pm_ra"; "pm_dec";
   "galactic_lng"; "galactic_lat"; "distance"; "distance_err"].

Definition non_sidereal_parameters : list string :=
  ["mean_anomaly"; "arg_of_perihelion"; "eccentricity"; "lng_asc_node";
   "inclination"; "mean_daily_motion"; "semimajor_axis";
   "ephemeris_period"; "ephemeris_period_err"; "ephemeris_epoch";
   "ephemeris_epoch_err"].

(** ** Django's view of the class

    [Target._meta.concrete_fields] and [django.forms.models.model_to_dict]
    belong to Django, not to this repository; they are embedded here
    because [as_dict] is one call of [model_to_dict]. *)

Record Field : Type := {
  fname : string;
  editable : bool;
  value_from_object : Target -> pyval
}.

Definition CharField (n : string) (get : Target -> string) : Field :=
  {| fname := n; editable := true; value_from_object := fun t => PyStr (get t) |}.

Definition FloatField (n : string) (get : Target -> option float) : Field :=
  {| fname := n; editable := true; value_from_object := fun t => py_of_float (get t) |}.

(** [auto_now] and [auto_now_add] make a [DateTimeField] non-editable. *)
Definition AutoDateTimeField (n : string) (get : Target -> option datetime) : Field :=
  {| fname := n; editable := false; value_from_object := fun t => py_of_datetime (get t) |}.

Definition AutoField (n : string) (get : Target -> option Z) : Field :=
  {| fname := n; editable := true; value_from_object := fun t => py_of_int (get t) |}.

(** The columns in the order of the class body, the automatic primary key
    first. *)
Definition concrete_fields : list Field :=
  [ AutoField "id" id;
    CharField "identifier" identifier;
    CharField "name" name;
    CharField "type" type;
    CharField "designation" designation;
    AutoDateTimeField "created" created;
    AutoDateTimeField "modified" modified;
    FloatField "ra" ra;
    FloatField "dec" dec;
    FloatField "epoch" epoch;
    FloatField "parallax" parallax;
    FloatField "pm_ra" pm_ra;
    FloatField "pm_dec" pm_dec;
    FloatField "galactic_lng" galactic_lng;
    FloatField "galactic_lat" galactic_lat;
    FloatField "distance" distance;
    FloatField "distance_err" distance_err;
    FloatField "mean_anomaly" mean_anomaly;
    FloatField "arg_of_perihelion" arg_of_perihelion;
    FloatField "eccentricity" eccentricity;
    FloatField "lng_asc_node" lng_asc_node;
    FloatField "inclination" inclination;
    FloatField "mean_daily_motion" mean_daily_motion;
    FloatField "semimajor_axis" semimajor_axis;
    FloatField "ephemeris_period" ephemeris_period;
    FloatField "ephemeris_period_err" ephemeris_period_err;
    FloatField "ephemeris_epoch" ephemeris_epoch;
    FloatField "ephemeris_epoch_err" ephemeris_epoch_err ].

Definition field_names : list string := fname <$> concrete_fields.

(** [f.name not in names] for an optional list of names; [None] is the
    argument left out. *)
Definition listed (names : option (list string)) (n : string) : bool :=
  match names with
  | Some l => bool_decide (n ∈ l)
  | None => false
  end.

(** One turn of the loop of [model_to_dict]:
<<
    if not getattr(f, 'editable', False): continue
    if fields is not None and f.name not in fields: continue
    if exclude and f.name in exclude: continue
    data[f.name] = f.value_from_object(instance)
>>
    (Django before 3.0 tests [fields] for truth; the two agree unless
    [fields] is the empty list.) *)
Definition model_to_dict_step (instance : Target)
    (fields exclude : option (list string)) (data : pydict) (f : Field) : pydict :=
  if negb (editable f) then data
  else if match fields with
          | Some l => negb (bool_decide (fname f ∈ l))
          | None => false
          end then data
  else if listed exclude (fname f) then data
  else dict_set data (fname f) (value_from_object f instance).

Definition model_to_dict (instance : Target)
    (fields exclude : option (list string)) : pydict :=
  foldl (model_to_dict_step instance fields exclude) [] concrete_fields.

(** ** Target.as_dict (models.py, lines 71-79) *)

(** The [if]/[elif]/[else] that picks [fields_for_type]. *)
Definition fields_for_type (ty : string) : list string :=
  if py_eq (Str ty) (Str SIDEREAL) then SIDEREAL_FIELDS
  else if py_eq (Str ty) (Str NON_SIDEREAL) then NON_SIDEREAL_FIELDS
  else GLOBAL_TARGET_FIELDS.

Definition as_dict (self : Target) : pydict :=
  model_to_dict self (Some (fields_for_type (type self))) None.

(** ** Target.get_object_instance_for_type (models.py, lines 81-93) *)

(** The two skyfield constructors the method calls, with their keyword
    arguments in the order of the call. *)
Inductive target_object : Type :=
| Star (ra_hours dec_degrees ra_mas_per_year dec_mas_per_year
        epoch_ parallax_mas : option float)
| OsculatingElements (eccentricity_ inclination_
                      longitude_of_ascending_node : option float).

(** The tests read [type == self.SIDEREAL] and [type == self.NON_SIDEREAL]:
    their left operand is the bare name [type], not [self.type]. A method
    that ends without [return] gives [None]. *)
Definition get_object_instance_for_type (self : Target) : option target_object :=
  if py_eq BuiltinType (Str SIDEREAL) then
    Some (Star (ra self) (dec self) (pm_ra self) (pm_dec self)
               (epoch self) (parallax self))
  else if py_eq BuiltinType (Str NON_SIDEREAL) then
    Some (OsculatingElements (eccentricity self) (inclination self)
                             (lng_asc_node self))
  else None.

(** ** Exceptions, [range] and the time samples (models.py, line 107) *)

Inductive exn : Type :=
| Exception (cls msg : string).

Definition ValueError (msg : string) : exn := Exception "ValueError" msg.

Definition exc_msg (e : exn) : string :=
  match e with Exception _ msg => msg end.

(** [len(range(start, stop, step))] for a non-zero [step]. *)
Definition range_len (start stop step : Z) : Z :=
  if 0 <? step then
    if start <? stop then (stop - start - 1) / step + 1 else 0
  else
    if stop <? start then (start - stop - 1) / (- step) + 1 else 0.

(** What [range] raises for a zero step. *)
Definition range_step_zero : exn :=
  ValueError "range() arg 3 must not be zero".

(** [list(range(start, stop, step))]; a zero step raises. *)
Definition range (start stop step : Z) : exn + list Z :=
  if step =? 0 then inl range_step_zero
  else inr ((fun i => start + i * step) <$> seqZ 0 (range_len start stop step)).

(** [timedelta(minutes=i)], in microseconds. The minutes that reach it
    come from [range(0, 60, interval)], far inside the range of a
    [timedelta]. *)
Definition timedelta_minutes (i : Z) : Z := i * 60000000.

(** [datetime.max], 9999-12-31T23:59:59.999999. *)
Definition datetime_max : datetime := 315537897599999999.

(** The values a [datetime] can take. *)
Definition valid_datetime (d : datetime) : Prop := 0 ≤ d ≤ datetime_max.

Definition OverflowError (msg : string) : exn := Exception "OverflowError" msg.

(** What [datetime + timedelta] raises when the sum is not a date. *)
Definition date_out_of_range : exn := OverflowError "date value out of range".

(** [d + delta] for a [datetime] and a [timedelta]. *)
Definition datetime_add (d : datetime) (delta : Z) : exn + datetime :=
  if (0 <=? d + delta) && (d + delta <=? datetime_max)
  then inr (d + delta)
  else inl date_out_of_range.

(** [[f(x) for x in l]], where [f] may raise: the items are computed in
    order and the first exception is the result. *)
Fixpoint comprehension {A B} (f : A → exn + B) (l : list A) : exn + list B :=
  match l with
  | [] => inr []
  | x :: l' =>
      match f x with
      | inl e => inl e
      | inr y =>
          match comprehension f l' with
          | inl e => inl e
          | inr ys => inr (y :: ys)
          end
      end
  end.

(** [[start_time + timedelta(minutes=i) for i in range(0, 60, interval)]] *)
Definition time_samples (start_time : datetime) (interval : Z) : exn + list datetime :=
  match range 0 60 interval with
  | inl e => inl e
  | inr r => comprehension (fun i => datetime_add start_time (timedelta_minutes i)) r
  end.

(** ** Printing and failing: the monad of [get_visibility] *)

(** A computation leaves the lines it printed and either an exception or a
    value. *)
Definition M (W A : Type) : Type := list W * (exn + A).

#[global] Instance M_ret {W} : MRet (M W) := fun A a => ([], inr a).

#[global] Instance M_bind {W} : MBind (M W) := fun A B k m =>
  match m with
  | (out, inl e) => (out, inl e)
  | (out, inr a) => let (out', r) := k a in (out ++ out', r)
  end.

Definition lift {W A} (r : exn + A) : M W A := ([], r).

Definition print {W} (line : W) : M W unit := ([line], inr tt).

(** [for x in l: body(x)] *)
Fixpoint for_each {W A} (l : list A) (body : A -> M W unit) : M W unit :=
  match l with
  | [] => mret tt
  | x :: l' => _ ← body x; for_each l' body
  end.

Definition stdout {W A} (m : M W A) : list W := m.1.
Definition outcome {W A} (m : M W A) : exn + A := m.2.

(** ** The collaborators of [get_visibility] *)

(** What the method uses of skyfield. Each operation may raise. *)
Record Skyfield : Type := {
  Ephemeris : Type;
  Timescale : Type;
  Observer : Type;
  Time : Type;
  Astrometric : Type;
  Apparent : Type;
  Angle : Type;
  Distance : Type;
  (** [load(name)] *)
  load : string -> exn + Ephemeris;
  (** [load.timescale()] *)
  load_timescale : exn + Timescale;
  (** [planets['earth'] + Topos(latitude, longitude)] *)
  earth_topos : Ephemeris -> option float -> option float -> exn + Observer;
  (** [ts.utc(datetimes)] *)
  utc : Timescale -> list datetime -> exn + Time;
  (** [observing_site.at(time_range).observe(target_object)] *)
  observe : Observer -> Time -> option target_object -> exn + Astrometric;
  (** [astrometric_position.apparent()] *)
  apparent : Astrometric -> exn + Apparent;
  (** [apparent_position.altaz()] *)
  altaz : Apparent -> exn + (Angle * Angle * Distance)
}.

(** The details of one observing site: a [dict] of coordinates. *)
Definition site_details : Type := list (string * float).

(** [site_details.get(key)] *)
Fixpoint details_get (d : site_details) (key : string) : option float :=
  match d with
  | [] => None
  | (k, x) :: d' => if decide (k = key) then Some x else details_get d' key
  end.

(** The registry of [tom_observations.facility], whose code is not part of
    this module and is taken as a parameter: the names
    [get_service_classes()] lists, and for each name the items of
    [get_service_class(name).get_observing_sites()], a mapping from site
    name to the site's coordinates. *)
Record FacilityRegistry : Type := {
  get_service_classes : list string;
  get_observing_sites : string -> list (string * site_details)
}.

(** Every site the loops visit, in order. *)
Definition all_sites (facility : FacilityRegistry) : list (string * site_details) :=
  get_service_classes facility ≫= get_observing_sites facility.

(** One [print] call: the object it was given, or nothing. *)
Inductive printed (sky : Skyfield) : Type :=
| PrintAngle (a : Angle sky)
| PrintDistance (d : Distance sky)
| PrintBlank.

Arguments PrintAngle {sky} a.
Arguments PrintDistance {sky} d.
Arguments PrintBlank {sky}.

(** ** Target.get_visibility (models.py, lines 95-115) *)

Section Visibility.
Context (sky : Skyfield) (facility : FacilityRegistry).

(** Lines 108-114: observe the target and print the three results. *)
Definition observe_and_print (observing_site : Observer sky)
    (target_object : option target_object) (time_range : Time sky)
    : M (printed sky) unit :=
  astrometric_position ← lift (observe sky observing_site time_range target_object);
  apparent_position ← lift (apparent sky astrometric_position);
  '(alt, az, distance) ← lift (altaz sky apparent_position);
  _ ← print (PrintAngle alt);
  _ ← print (PrintAngle az);
  _ ← print (PrintDistance distance);
  print PrintBlank.

(** Lines 101-114: the body of the inner loop. *)
Definition visit_site (planets : Ephemeris sky) (ts : Timescale sky)
    (self : Target) (start_time : datetime) (interval : Z)
    (item : string * site_details) : M (printed sky) unit :=
  let '(site, site_details) := item in
  observing_site ← lift (earth_topos sky planets
                           (details_get site_details "latitude")
                           (details_get site_details "longitude"));
  let target_object := get_object_instance_for_type self in
  samples ← lift (time_samples start_time interval);
  time_range ← lift (utc sky ts samples);
  observe_and_print observing_site target_object time_range.

(** The method ends in [pass]: its value is [None]. *)
Definition get_visibility (self : Target) (start_time end_time : datetime)
    (interval : Z) : M (printed sky) pyval :=
  planets ← lift (load sky "de421.bsp");
  ts ← lift (load_timescale sky);
  _ ← for_each (get_service_classes facility) (fun observing_facility =>
        let sites := get_observing_sites facility observing_facility in
        for_each sites (visit_site planets ts self start_time interval));
  mret PyNone.

End Visibility.

(** ** Vocabulary of the statements *)

(** The columns that get past the three [continue] tests of
    [model_to_dict]. *)
Definition kept (fields exclude : option (list string)) (f : Field) : bool :=
  editable f
  && match fields with Some l => bool_decide (fname f ∈ l) | None => true end
  && negb (listed exclude (fname f)).

(** The item [model_to_dict] stores for a column. *)
Definition entry (instance : Target) (f : Field) : string * pyval :=
  (fname f, value_from_object f instance).

(** The names of the editable columns, in the order of the class body. *)
Definition editable_names : list string :=
  fname <$> filter editable concrete_fields.

(** The last minute [range(0, 60, interval)] reaches, for a positive
    interval. *)
Definition last_minute (interval : Z) : Z := 59 / interval * interval.

(** The four lines one site adds to the console. *)
Definition site_lines {sky : Skyfield}
    (r : Angle sky * Angle sky * Distance sky) : list (printed sky) :=
  let '(alt, az, distance) := r in
  [PrintAngle alt; PrintAngle az; PrintDistance distance; PrintBlank].

(** ** Worked inputs *)

(** A sidereal target: RA 10, Dec 20, epoch 2000, no proper motion. *)
Definition kelt16b : Target := {|
  id := Some 1;
  identifier := "Kelt-16b";
  name := "Kelt-16b";
  type := "SIDEREAL";
  designation := "";
  created := Some 63839664000000000;
  modified := Some 63839664000000000;
  ra := Some 10.0%float;
  dec := Some 20.0%float;
  epoch := Some 2000.0%float;
  parallax := Some 0.0%float;
  pm_ra := Some 0.0%float;
  pm_dec := Some 0.0%float;
  galactic_lng := None;
  galactic_lat := None;
  distance := None;
  distance_err := None;
  mean_anomaly := None;
  arg_of_perihelion := None;
  eccentricity := None;
  lng_asc_node := None;
  inclination := None;
  mean_daily_motion := None;
  semimajor_axis := None;
  ephemeris_period := None;
  ephemeris_period_err := None;
  ephemeris_epoch := None;
  ephemeris_epoch_err := None
|}.

(** A minor planet given by its orbit. *)
Definition ceres : Target := {|
  id := Some 2;
  identifier := "1 Ceres";
  name := "Ceres";
  type := "NON_SIDEREAL";
  designation := "A801 AA";
  created := Some 63839664000000000;
  modified := Some 63839750400000000;
  ra := None;
  dec := None;
  epoch := None;
  parallax := None;
  pm_ra := None;
  pm_dec := None;
  galactic_lng := None;
  galactic_lat := None;
  distance := None;
  distance_err := None;
  mean_anomaly := Some 77.372%float;
  arg_of_perihelion := Some 73.597%float;
  eccentricity := Some 0.0758%float;
  lng_asc_node := Some 80.306%float;
  inclination := Some 10.594%float;
  mean_daily_motion := Some 0.2141%float;
  semimajor_axis := Some 2.769%float;
  ephemeris_period := None;
  ephemeris_period_err := None;
  ephemeris_epoch := None;
  ephemeris_epoch_err := None
|}.

(** A row whose [type] is neither of the two kinds. *)
Definition unknown_kind : Target := {|
  id := None;
  identifier := "X-1";
  name := "";
  type := "PLANET";
  designation := "";
  created := None;
  modified := None;
  ra := None;
  dec := None;
  epoch := None;
  parallax := None;
  pm_ra := None;
  pm_dec := None;
  galactic_lng := None;
  galactic_lat := None;
  distance := None;
  distance_err := None;
  mean_anomaly := None;
  arg_of_perihelion := None;
  eccentricity := None;
  lng_asc_node := None;
  inclination := None;
  mean_daily_motion := None;
  semimajor_axis := None;
  ephemeris_period := None;
  ephemeris_period_err := None;
  ephemeris_epoch := None;
  ephemeris_epoch_err := None
|}.

(** 2024-01-01T00:00:00Z and one hour later. *)
Definition new_year_2024 : datetime := 63839664000000000.
Definition one_hour_later : datetime := 63839667600000000.

(** 9999-12-31T23:30:00, half an hour before the last date. *)
Definition last_half_hour : datetime := 315537895800000000.

(** A stand-in for skyfield whose operations always succeed: a time range
    is the list of its instants, and every instant gets altitude 45,
    azimuth 180 and distance 1, whatever is observed. *)
Definition stub_sky : Skyfield := {|
  Ephemeris := unit;
  Timescale := unit;
  Observer := option float * option float;
  Time := list datetime;
  Astrometric := list datetime;
  Apparent := list datetime;
  Angle := list Z;
  Distance := list Z;
  load := fun _ => inr tt;
  load_timescale := inr tt;
  earth_topos := fun _ lat lng => inr (lat, lng);
  utc := fun _ l => inr l;
  observe := fun _ l _ => inr l;
  apparent := fun l => inr l;
  altaz := fun l => inr ((fun _ => 45) <$> l, (fun _ => 180) <$> l, (fun _ => 1) <$> l)
|}.

(** A registry with no facility at all. *)
Definition no_facility : FacilityRegistry := {|
  get_service_classes := [];
  get_observing_sites := fun _ => []
|}.

(** A registry with one facility and one site, at latitude 31.6 and
    longitude -110.6. *)
Definition one_site : FacilityRegistry := {|
  get_service_classes := ["LCO"];
  get_observing_sites := fun _ =>
    [("Mount Hopkins", [("latitude", 31.6%float); ("longitude", (-110.6)%float)])]
|}.

(** The same star after a new measurement: the row was saved again under
    another key, with a parallax. Every column [as_dict] lists is as in
    [kelt16b]. *)
Definition kelt16b_remeasured : Target := {|
  id := Some 7;
  identifier := "Kelt-16b";
  name := "Kelt-16b";
  type := "SIDEREAL";
  designation := "";
  created := Some 63839664000000000;
  modified := Some 63839750400000000;
  ra := Some 10.0%float;
  dec := Some 20.0%float;
  epoch := Some 2000.0%float;
  parallax := Some 2.5%float;
  pm_ra := Some 0.0%float;
  pm_dec := Some 0.0%float;
  galactic_lng := None;
  galactic_lat := None;
  distance := None;
  distance_err := None;
  mean_anomaly := None;
  arg_of_perihelion := None;
  eccentricity := None;
  lng_asc_node := None;
  inclination := None;
  mean_daily_motion := None;
  semimajor_axis := None;
  ephemeris_period := None;
  ephemeris_period_err := None;
  ephemeris_epoch := None;
  ephemeris_epoch_err := None
|}.

(** A stand-in like [stub_sky], except that it refuses to build an observer
    when a coordinate is missing. *)
Definition strict_sky : Skyfield := {|
  Ephemeris := unit;
  Timescale := unit;
  Observer := float * float;
  Time := list datetime;
  Astrometric := list datetime;
  Apparent := list datetime;
  Angle := list Z;
  Distance := list Z;
  load := fun _ => inr tt;
  load_timescale := inr tt;
  earth_topos := fun _ lat lng =>
    match lat, lng with
    | Some a, Some b => inr (a, b)
    | _, _ => inl (Exception "TypeError" "missing coordinate")
    end;
  utc := fun _ l => inr l;
  observe := fun _ l _ => inr l;
  apparent := fun l => inr l;
  altaz := fun l => inr ((fun _ => 45) <$> l, (fun _ => 180) <$> l, (fun _ => 1) <$> l)
|}.

(** A stand-in whose ephemeris file cannot be loaded. *)
Definition no_ephemeris_sky : Skyfield := {|
  Ephemeris := unit;
  Timescale := unit;
  Observer := unit;
  Time := unit;
  Astrometric := unit;
  Apparent := unit;
  Angle := unit;
  Distance := unit;
  load := fun _ => inl (Exception "OSError" "cannot download de421.bsp");
  load_timescale := inr tt;
  earth_topos := fun _ _ _ => inr tt;
  utc := fun _ _ => inr tt;
  observe := fun _ _ _ => inr tt;
  apparent := fun _ => inr tt;
  altaz := fun _ => inr (tt, tt, tt)
|}.

(** Two facilities with three sites; the second site has no latitude. *)
Definition three_sites : FacilityRegistry := {|
  get_service_classes := ["LCO"; "Gemini"];
  get_observing_sites := fun observing_facility =>
    if decide (observing_facility = "LCO") then
      [("Mount Hopkins", [("latitude", 31.6%float); ("longitude", (-110.6)%float)]);
       ("Unsurveyed", [("longitude", 17.0%float)])]
    else
      [("Cerro Pachon", [("latitude", (-30.25)%float); ("longitude", (-70.75)%float)])]
|}.

(** The site of [one_site] under other names. *)
Definition one_site_renamed : FacilityRegistry := {|
  get_service_classes := ["Whipple"];
  get_observing_sites := fun _ =>
    [("FLWO", [("latitude", 31.6%float); ("longitude", (-110.6)%float)])]
|}.

(** * Properties *)

(** ** Dictionaries *)

Lemma keys_app (d1 d2 : pydict) : keys (d1 ++ d2) = keys d1 ++ keys d2.
Proof. unfold keys. apply fmap_app. Qed.

Lemma dict_set_fresh (d : pydict) (k : string) (v : pyval) :
  k ∉ keys d → dict_set d k v = d ++ [(k, v)].
Proof.
  induction d as [|[k' v'] d IH]; simpl; intros Hk; [done|].
  apply not_elem_of_cons in Hk as [Hne Hk].
  case_decide; [congruence|]. by rewrite IH.
Qed.

Lemma dict_get_app_fresh (d1 d2 : pydict) (k : string) :
  k ∉ keys d1 → dict_get (d1 ++ d2) k = dict_get d2 k.
Proof.
  induction d1 as [|[k' v'] d1 IH]; simpl; intros Hk; [done|].
  apply not_elem_of_cons in Hk as [Hne Hk].
  case_decide; [congruence|]. by apply IH.
Qed.

(** ** model_to_dict *)

Lemma model_to_dict_step_kept instance fields exclude data f :
  model_to_dict_step instance fields exclude data f =
  if kept fields exclude f
  then dict_set data (fname f) (value_from_object f instance)
  else data.
Proof.
  unfold model_to_dict_step, kept.
  destruct (editable f); simpl; [|done].
  destruct fields as [l|]; simpl.
  - destruct (bool_decide (fname f ∈ l)); simpl; [|done].
    by destruct (listed exclude (fname f)).
  - by destruct (listed exclude (fname f)).
Qed.

(** Over columns with distinct names that are not yet keys, the loop
    appends one entry per column kept, in the order of the columns. *)
Lemma foldl_model_to_dict_step instance fields exclude (fs : list Field) :
  NoDup (fname <$> fs) →
  ∀ data : pydict,
    (∀ f, f ∈ fs → fname f ∉ keys data) →
    foldl (model_to_dict_step instance fields exclude) data fs =
    data ++ (entry instance <$> filter (kept fields exclude) fs).
Proof.
  induction fs as [|f fs IH]; simpl; intros Hnd data Hfresh.
  - by rewrite app_nil_r.
  - apply NoDup_cons in Hnd as [Hf Hnd].
    rewrite model_to_dict_step_kept, filter_cons.
    destruct (kept fields exclude f) eqn:Hk; simpl.
    + rewrite dict_set_fresh by (apply Hfresh; left).
      rewrite IH; [by rewrite <- app_assoc | done |].
      intros g Hg. rewrite keys_app, elem_of_app. intros [Hin|Hin].
      * by apply (Hfresh g); [right|].
      * apply list_elem_of_singleton in Hin. apply Hf.
        simpl in Hin. rewrite <- Hin. by apply list_elem_of_fmap_2.
    + apply IH; [done|]. intros g Hg. apply Hfresh. by right.
Qed.

Lemma NoDup_field_names : NoDup field_names.
Proof. apply (bool_decide_unpack _). by vm_compute. Qed.

Lemma model_to_dict_entries instance fields exclude :
  model_to_dict instance fields exclude =
  entry instance <$> filter (kept fields exclude) concrete_fields.
Proof.
  unfold model_to_dict.
  rewrite foldl_model_to_dict_step; [done | apply NoDup_field_names |].
  intros f _. unfold keys. simpl. apply not_elem_of_nil.
Qed.

Lemma keys_model_to_dict instance fields exclude :
  keys (model_to_dict instance fields exclude) =
  fname <$> filter (kept fields exclude) concrete_fields.
Proof.
  rewrite model_to_dict_entries. unfold keys.
  rewrite <- list_fmap_compose. done.
Qed.

Lemma kept_spec (fields : list string) (f : Field) :
  kept (Some fields) None f ↔ editable f ∧ fname f ∈ fields.
Proof.
  unfold kept. simpl. rewrite andb_true_r, andb_True, bool_decide_spec. done.
Qed.

Lemma kept_names (fields : list string) (fs : list Field) :
  fname <$> filter (kept (Some fields) None) fs =
  filter (λ n, n ∈ fields) (fname <$> filter editable fs).
Proof.
  induction fs as [|f fs IH]; [done|].
  destruct (decide (editable f)) as [He|He].
  - rewrite (filter_cons_True (λ f, Is_true (editable f))) by done.
    rewrite fmap_cons.
    destruct (decide (fname f ∈ fields)) as [Hin|Hin].
    + rewrite filter_cons_True by (by apply kept_spec).
      rewrite filter_cons_True by done. rewrite fmap_cons. by f_equal.
    + rewrite filter_cons_False by (rewrite kept_spec; tauto).
      by rewrite filter_cons_False by done.
  - rewrite (filter_cons_False (λ f, Is_true (editable f))) by done.
    by rewrite filter_cons_False by (rewrite kept_spec; tauto).
Qed.

Lemma dict_get_entries instance fields exclude (fs : list Field) (f : Field) :
  NoDup (fname <$> fs) → f ∈ fs → kept fields exclude f →
  dict_get (entry instance <$> filter (kept fields exclude) fs) (fname f) =
  Some (value_from_object f instance).
Proof.
  induction fs as [|g fs IH]; simpl; intros Hnd Hin Hk.
  - by apply elem_of_nil in Hin.
  - apply NoDup_cons in Hnd as [Hg Hnd]. rewrite filter_cons.
    apply elem_of_cons in Hin as [->|Hin].
    + rewrite decide_True by done. simpl. by rewrite decide_True.
    + destruct (decide (kept fields exclude g)); [|by apply IH].
      simpl. rewrite decide_False; [by apply IH|].
      intros Heq. apply Hg. rewrite Heq. by apply list_elem_of_fmap_2.
Qed.

(** ** fields_for_type *)

Lemma fields_for_type_cases (ty : string) :
  (ty = SIDEREAL ∧ fields_for_type ty = SIDEREAL_FIELDS)
  ∨ (ty = NON_SIDEREAL ∧ fields_for_type ty = NON_SIDEREAL_FIELDS)
  ∨ (ty ≠ SIDEREAL ∧ ty ≠ NON_SIDEREAL ∧ fields_for_type ty = GLOBAL_TARGET_FIELDS).
Proof.
  unfold fields_for_type, py_eq.
  case_bool_decide as H1; [by left|].
  case_bool_decide as H2; [by right; left|].
  by right; right.
Qed.

(** The keys [as_dict] returns, for each of the three lists. *)
Lemma keys_as_dict (self : Target) :
  keys (as_dict self) = filter (λ n, n ∈ fields_for_type (type self)) editable_names.
Proof. unfold as_dict. rewrite keys_model_to_dict. apply kept_names. Qed.

Lemma keys_as_dict_cases (self : Target) :
  (type self = SIDEREAL ∧ keys (as_dict self) =
     ["identifier"; "name"; "type"; "designation"; "ra"; "dec"; "epoch";
      "pm_ra"; "pm_dec"; "galactic_lng"; "galactic_lat"; "distance";
      "distance_err"])
  ∨ (type self = NON_SIDEREAL ∧ keys (as_dict self) =
     ["identifier"; "name"; "type"; "designation"; "mean_anomaly";
      "arg_of_perihelion"; "lng_asc_node"; "inclination";
      "mean_daily_motion"; "semimajor_axis"; "ephemeris_period";
      "ephemeris_period_err"; "ephemeris_epoch"; "ephemeris_epoch_err"])
  ∨ (type self ≠ SIDEREAL ∧ type self ≠ NON_SIDEREAL ∧ keys (as_dict self) =
     ["identifier"; "name"; "type"; "designation"]).
Proof.
  rewrite keys_as_dict.
  destruct (fields_for_type_cases (type self)) as [[? ->]|[[? ->]|(? & ? & ->)]].
  - left. split; [done|]. by vm_compute.
  - right; left. split; [done|]. by vm_compute.
  - right; right. repeat split; try done; by vm_compute.
Qed.

(** C6: the selection of [fields_for_type] in [as_dict] is a total function
    of the type string with three cases. For every type it returns a list
    that contains the four identity fields identifier, name, designation and
    type, and that names only declared columns of the model; it is
    [SIDEREAL_FIELDS] for "SIDEREAL", [NON_SIDEREAL_FIELDS] for
    "NON_SIDEREAL", and for every other string exactly the four identity
    fields. *)
Theorem fields_for_type_total (ty : string) :
  ["identifier"; "name"; "designation"; "type"] ⊆ fields_for_type ty
  ∧ fields_for_type ty ⊆ field_names
  ∧ ((ty = "SIDEREAL" ∧ fields_for_type ty = SIDEREAL_FIELDS)
     ∨ (ty = "NON_SIDEREAL" ∧ fields_for_type ty = NON_SIDEREAL_FIELDS)
     ∨ (ty ≠ "SIDEREAL" ∧ ty ≠ "NON_SIDEREAL"
        ∧ fields_for_type ty = ["identifier"; "name"; "designation"; "type"])).
Proof.
  split_and!; [| |apply fields_for_type_cases];
    destruct (fields_for_type_cases ty) as [[_ ->]|[[_ ->]|(_ & _ & ->)]];
    apply (bool_decide_unpack _); by vm_compute.
Qed.

(** C5, as the code has it: the list chosen for "SIDEREAL" holds the identity
    fields and every sidereal parameter of the data model except parallax;
    the list chosen for "NON_SIDEREAL" holds the identity fields and every
    orbital parameter except eccentricity. *)
Theorem fields_for_type_parameters (n : string) :
  (n ∈ fields_for_type "SIDEREAL" ↔
     n ∈ GLOBAL_TARGET_FIELDS ∨ (n ∈ sidereal_parameters ∧ n ≠ "parallax"))
  ∧ (n ∈ fields_for_type "NON_SIDEREAL" ↔
     n ∈ GLOBAL_TARGET_FIELDS ∨ (n ∈ non_sidereal_parameters ∧ n ≠ "eccentricity")).
Proof.
  change (fields_for_type "SIDEREAL") with SIDEREAL_FIELDS.
  change (fields_for_type "NON_SIDEREAL") with NON_SIDEREAL_FIELDS.
  unfold SIDEREAL_FIELDS, NON_SIDEREAL_FIELDS, GLOBAL_TARGET_FIELDS,
    sidereal_parameters, non_sidereal_parameters.
  split; rewrite elem_of_app, !elem_of_cons, !elem_of_nil;
    intuition (subst; first [done | tauto]).
Qed.

(** C5, the claim as written fails: parallax is a sidereal parameter and
    eccentricity an orbital one, yet neither is in the list chosen for its
    type, and [as_dict] leaves out the parallax of a sidereal target. *)
Lemma parallax_and_eccentricity_not_listed :
  "parallax" ∈ sidereal_parameters
  ∧ ("parallax" ∉ fields_for_type "SIDEREAL")
  ∧ "eccentricity" ∈ non_sidereal_parameters
  ∧ ("eccentricity" ∉ fields_for_type "NON_SIDEREAL")
  ∧ parallax kelt16b = Some 0.0%float
  ∧ dict_get (as_dict kelt16b) "parallax" = None.
Proof.
  split_and!; try reflexivity; apply (bool_decide_unpack _); by vm_compute.
Qed.

(** C7, as the code has it: for every target and every non-empty list of
    requested names (the case on which all Django releases agree), the keys of the projection are the editable columns of
    the model whose name is requested, each once, in the order the class
    declares them (not the order of the request); each such key holds the
    record's current value of that column, [None] when it is unset. For the
    list [as_dict] requests, the keys are a rearrangement of that list. *)
Theorem model_to_dict_projection (self : Target) (fields : list string) :
  fields ≠ [] →
  keys (model_to_dict self (Some fields) None) =
    filter (λ n, n ∈ fields) editable_names
  ∧ NoDup (keys (model_to_dict self (Some fields) None))
  ∧ (∀ f, f ∈ concrete_fields → editable f → fname f ∈ fields →
       dict_get (model_to_dict self (Some fields) None) (fname f) =
       Some (value_from_object f self))
  ∧ keys (as_dict self) ≡ₚ fields_for_type (type self).
Proof.
  intros _.
  assert (Hkeys : keys (model_to_dict self (Some fields) None) =
                  filter (λ n, n ∈ fields) editable_names).
  { rewrite keys_model_to_dict. apply kept_names. }
  split_and!.
  - done.
  - rewrite Hkeys. apply NoDup_filter.
    apply (bool_decide_unpack _). by vm_compute.
  - intros f Hf He Hin. rewrite model_to_dict_entries.
    apply dict_get_entries; [apply NoDup_field_names | done |].
    by apply kept_spec.
  - rewrite keys_as_dict.
    destruct (fields_for_type_cases (type self))
      as [[_ ->]|[[_ ->]|(_ & _ & ->)]];
      apply (bool_decide_unpack _); by vm_compute.
Qed.

Lemma model_to_dict_projection_witness :
  ["ra"; "identifier"; "created"] ≠ []
  ∧ keys (model_to_dict kelt16b (Some ["ra"; "identifier"; "created"]) None) =
    ["identifier"; "ra"].
Proof.
  split; [discriminate|].
  destruct (model_to_dict_projection kelt16b ["ra"; "identifier"; "created"])
    as [Hkeys _]; [discriminate|].
  rewrite Hkeys. reflexivity.
Defined.

(** C7, the claim as written fails: [as_dict] asks for designation before
    type and gets type before designation; and a request naming a
    non-editable column and a name the model lacks gets neither key. *)
Lemma as_dict_keys_follow_the_model :
  fields_for_type (type unknown_kind) =
    ["identifier"; "name"; "designation"; "type"]
  ∧ keys (as_dict unknown_kind) =
    ["identifier"; "name"; "type"; "designation"]
  ∧ keys (as_dict unknown_kind) ≠ fields_for_type (type unknown_kind)
  ∧ keys (model_to_dict kelt16b (Some ["name"; "created"; "nickname"]) None) =
    ["name"].
Proof. split_and!; try reflexivity. discriminate. Qed.

(** C10: for every target, whatever its type, the keys of [as_dict] all come
    from the list chosen for the type, which is one of the three declared
    lists, and none of them is created, modified, or the primary key (id,
    also reachable as pk). *)
Theorem as_dict_omits_bookkeeping (self : Target) :
  keys (as_dict self) ⊆ fields_for_type (type self)
  ∧ fields_for_type (type self) ∈
      [GLOBAL_TARGET_FIELDS; SIDEREAL_FIELDS; NON_SIDEREAL_FIELDS]
  ∧ ("created" ∉ keys (as_dict self))
  ∧ ("modified" ∉ keys (as_dict self))
  ∧ ("id" ∉ keys (as_dict self))
  ∧ ("pk" ∉ keys (as_dict self)).
Proof.
  split.
  - rewrite keys_as_dict. intros n Hn. by apply list_elem_of_filter in Hn as [? _].
  - destruct (keys_as_dict_cases self) as [[_ ->]|[[_ ->]|(_ & _ & ->)]];
      destruct (fields_for_type_cases (type self))
        as [[_ ->]|[[_ ->]|(_ & _ & ->)]];
      split_and!; apply (bool_decide_unpack _); by vm_compute.
Qed.

(** ** get_object_instance_for_type *)

(** C1, what the code does instead: the method compares the builtin [type]
    with the two kind names, so neither branch is ever taken and every
    target, sidereal or not, gets [None] rather than a star or an orbit
    model. *)
Theorem get_object_instance_for_type_is_None (self : Target) :
  get_object_instance_for_type self = None.
Proof. reflexivity. Qed.

(** ** range and the time samples *)

Lemma range_len_positive_step (stop step : Z) :
  0 < stop → 0 < step → range_len 0 stop step = (stop - 1) / step + 1.
Proof.
  intros Hstop Hstep. unfold range_len.
  rewrite (proj2 (Z.ltb_lt 0 step)), (proj2 (Z.ltb_lt 0 stop)) by done.
  by rewrite Z.sub_0_r.
Qed.

Lemma range_len_negative_step (stop step : Z) :
  0 ≤ stop → step < 0 → range_len 0 stop step = 0.
Proof.
  intros Hstop Hstep. unfold range_len.
  rewrite (proj2 (Z.ltb_ge 0 step)), (proj2 (Z.ltb_ge stop 0)) by lia.
  done.
Qed.

(** Below a positive [stop], the multiples [k * step] of a positive step
    are those with [k] up to [(stop - 1) / step]. *)
Lemma multiple_below (stop step k : Z) :
  0 < step → (k * step < stop ↔ k < (stop - 1) / step + 1).
Proof.
  intros Hstep. split; intros Hk.
  - apply Z.lt_succ_r, Z.div_le_lower_bound; lia.
  - apply Z.lt_succ_r in Hk.
    pose proof (Z.mul_div_le (stop - 1) step Hstep). nia.
Qed.

Lemma datetime_add_ok (d delta : Z) :
  0 ≤ d + delta ≤ datetime_max → datetime_add d delta = inr (d + delta).
Proof.
  intros [Hlo Hhi]. unfold datetime_add.
  by rewrite (proj2 (Z.leb_le _ _) Hlo), (proj2 (Z.leb_le _ _) Hhi).
Qed.

Lemma datetime_add_raises (d delta : Z) :
  datetime_max < d + delta → datetime_add d delta = inl date_out_of_range.
Proof.
  intros Hhi. unfold datetime_add.
  rewrite (proj2 (Z.leb_gt _ _) Hhi). by rewrite andb_false_r.
Qed.

Lemma datetime_add_inl (d delta : Z) (e : exn) :
  datetime_add d delta = inl e → e = date_out_of_range.
Proof. unfold datetime_add. case_match; congruence. Qed.

Lemma comprehension_ok {A B} (f : A → exn + B) (g : A → B) (l : list A) :
  (∀ x, x ∈ l → f x = inr (g x)) → comprehension f l = inr (g <$> l).
Proof.
  induction l as [|x l IH]; intros Hok; [done|].
  simpl. rewrite (Hok x) by left. rewrite IH; [done|].
  intros y Hy. apply Hok. by right.
Qed.

(** When every exception [f] raises is [e], a list with an item on which
    [f] raises makes the comprehension raise [e]. *)
Lemma comprehension_raises {A B} (f : A → exn + B) (e : exn) (l : list A) (x0 : A) :
  (∀ x e', f x = inl e' → e' = e) → x0 ∈ l → f x0 = inl e →
  comprehension f l = inl e.
Proof.
  intros Hall. induction l as [|x l IH]; intros Hin Hx0.
  - by apply elem_of_nil in Hin.
  - simpl. destruct (f x) as [e'|y] eqn:Hx.
    + f_equal. by eapply Hall.
    + apply elem_of_cons in Hin as [->|Hin]; [congruence|].
      by rewrite IH.
Qed.

Lemma time_samples_zero (start_time : Z) :
  time_samples start_time 0 = inl range_step_zero.
Proof. reflexivity. Qed.

Lemma time_samples_negative (start_time interval : Z) :
  interval < 0 → time_samples start_time interval = inr [].
Proof.
  intros Hneg. unfold time_samples, range.
  rewrite (proj2 (Z.eqb_neq interval 0)) by lia.
  by rewrite range_len_negative_step by lia.
Qed.

Lemma time_samples_in_range (start_time interval : Z) :
  0 < interval → 0 ≤ start_time →
  start_time + timedelta_minutes (last_minute interval) ≤ datetime_max →
  time_samples start_time interval =
  inr ((λ k, start_time + timedelta_minutes (k * interval)) <$>
       seqZ 0 (59 / interval + 1)).
Proof.
  intros Hpos Hlo Hhi. unfold time_samples, range.
  rewrite (proj2 (Z.eqb_neq interval 0)) by lia.
  rewrite range_len_positive_step by lia. change (60 - 1) with 59.
  rewrite (comprehension_ok _ (λ i, start_time + timedelta_minutes i)).
  - f_equal. rewrite <- list_fmap_compose. done.
  - intros i Hi. apply list_elem_of_fmap in Hi as (k & -> & Hk).
    apply elem_of_seqZ in Hk. apply datetime_add_ok.
    unfold timedelta_minutes, last_minute in *. nia.
Qed.

Lemma time_samples_out_of_range (start_time interval : Z) :
  0 < interval →
  datetime_max < start_time + timedelta_minutes (last_minute interval) →
  time_samples start_time interval = inl date_out_of_range.
Proof.
  intros Hpos Hhi. unfold time_samples, range.
  rewrite (proj2 (Z.eqb_neq interval 0)) by lia.
  rewrite range_len_positive_step by lia. change (60 - 1) with 59.
  apply (comprehension_raises _ _ _ (last_minute interval)).
  - intros i e. apply datetime_add_inl.
  - apply list_elem_of_fmap. exists (59 / interval). split; [done|].
    apply elem_of_seqZ. pose proof (Z.div_pos 59 interval). lia.
  - by apply datetime_add_raises.
Qed.

(** C3, as the code has it: for a positive interval and a start_time whose
    last sample, start_time + (59 div interval) * interval minutes, is not
    after [datetime.max], the comprehension of line 107 succeeds and its
    samples are start_time + k * interval minutes for exactly the k >= 0
    with k * interval < 60, each once and in increasing k, whatever end_time
    is; every site visit hands this same list to [ts.utc]; and for
    interval = 10 there are exactly 6 samples. When the last sample would be
    after [datetime.max], the comprehension raises [OverflowError] instead,
    and a site visit fails with it, printing nothing, once its observer is
    built. *)
Theorem time_samples_one_hour (start_time interval : Z) :
  0 < interval → valid_datetime start_time →
  (start_time + timedelta_minutes (59 / interval * interval) ≤ datetime_max →
   ∃ samples : list datetime,
     time_samples start_time interval = inr samples
     ∧ samples = (λ k, start_time + timedelta_minutes (k * interval)) <$>
                 seqZ 0 (59 / interval + 1)
     ∧ (∀ k, k ∈ seqZ 0 (59 / interval + 1) ↔ 0 ≤ k ∧ k * interval < 60)
     ∧ (∀ d, d ∈ samples ↔
          ∃ k, 0 ≤ k ∧ k * interval < 60
               ∧ d = start_time + timedelta_minutes (k * interval))
     ∧ NoDup samples
     ∧ (interval = 10 → length samples = 6%nat)
     ∧ (∀ sky planets ts self site details,
          visit_site sky planets ts self start_time interval (site, details) =
          (observing_site ← lift (earth_topos sky planets
                                    (details_get details "latitude")
                                    (details_get details "longitude"));
           time_range ← lift (utc sky ts samples);
           observe_and_print sky observing_site
             (get_object_instance_for_type self) time_range)))
  ∧ (datetime_max < start_time + timedelta_minutes (59 / interval * interval) →
     time_samples start_time interval = inl date_out_of_range
     ∧ ∀ sky planets ts self site details observing_site,
         earth_topos sky planets (details_get details "latitude")
                     (details_get details "longitude") = inr observing_site →
         visit_site sky planets ts self start_time interval (site, details) =
         ([], inl date_out_of_range)).
Proof.
  intros Hpos [Hlo _]. split.
  - intros Hhi.
    assert (Hk : ∀ k, k ∈ seqZ 0 (59 / interval + 1) ↔ 0 ≤ k ∧ k * interval < 60).
    { intros k. rewrite elem_of_seqZ.
      pose proof (multiple_below 60 interval k Hpos) as Hm.
      change (60 - 1) with 59 in Hm. lia. }
    pose proof (time_samples_in_range start_time interval Hpos Hlo Hhi) as Hts.
    eexists. split; [exact Hts|]. split_and!.
    + done.
    + done.
    + intros d. rewrite list_elem_of_fmap. split.
      * intros (k & -> & Hin). exists k. apply Hk in Hin. tauto.
      * intros (k & H0 & Hlt & ->). exists k. split; [done|]. by apply Hk.
    + apply NoDup_fmap_2; [|apply NoDup_seqZ].
      intros j k Hjk. unfold timedelta_minutes in Hjk. nia.
    + intros ->. by vm_compute.
    + intros sky planets ts self site details.
      unfold visit_site. rewrite Hts. unfold mbind, M_bind, lift.
      destruct (earth_topos sky planets _ _) as [e|observing_site]; [done|].
      by case_match.
  - intros Hhi.
    pose proof (time_samples_out_of_range start_time interval Hpos Hhi) as Hts.
    split; [done|].
    intros sky planets ts self site details observing_site Htopos.
    unfold visit_site, mbind, M_bind, lift. by rewrite Htopos, Hts.
Qed.

Lemma time_samples_one_hour_witness :
  0 < 15 ∧ valid_datetime new_year_2024
  ∧ time_samples new_year_2024 15 =
    inr [63839664000000000; 63839664900000000;
         63839665800000000; 63839666700000000].
Proof.
  assert (Hvalid : valid_datetime new_year_2024) by (by vm_compute).
  split; [lia|]. split; [exact Hvalid|].
  destruct (time_samples_one_hour new_year_2024 15) as [Hin _];
    [lia | exact Hvalid |].
  destruct Hin as (samples & Hts & -> & _); [by vm_compute|].
  rewrite Hts. reflexivity.
Defined.

(** C3, the claim as written fails: at the last date, or half an hour
    before it, a ten-minute interval gives no samples at all, the sum that
    would pass [datetime.max] raises [OverflowError]. *)
Lemma time_samples_overflow_at_the_last_date :
  valid_datetime datetime_max
  ∧ time_samples datetime_max 10 = inl date_out_of_range
  ∧ valid_datetime last_half_hour
  ∧ time_samples last_half_hour 10 = inl date_out_of_range.
Proof. split_and!; try reflexivity; by vm_compute. Qed.

(** ** The monad and its loops *)

Lemma M_bind_ret_l {W A B} (a : A) (k : A → M W B) : mret a ≫= k = k a.
Proof. unfold mbind, M_bind, mret, M_ret. by destruct (k a). Qed.

Lemma M_bind_assoc {W A B C} (m : M W A) (f : A → M W B) (g : B → M W C) :
  (m ≫= f) ≫= g = m ≫= (λ a, f a ≫= g).
Proof.
  unfold mbind, M_bind. destruct m as [out [e|a]]; [done|].
  destruct (f a) as [out1 [e|b]]; [done|].
  destruct (g b) as [out2 r]. by rewrite app_assoc.
Qed.

Lemma for_each_app {W A} (l1 l2 : list A) (body : A → M W unit) :
  for_each (l1 ++ l2) body = (_ ← for_each l1 body; for_each l2 body).
Proof.
  induction l1 as [|x l1 IH].
  - symmetry. apply (M_bind_ret_l tt (λ _, for_each l2 body)).
  - change (for_each ((x :: l1) ++ l2) body)
      with (_ ← body x; for_each (l1 ++ l2) body).
    rewrite IH. symmetry.
    apply (M_bind_assoc (body x) (λ _, for_each l1 body) (λ _, for_each l2 body)).
Qed.

(** Two nested loops visit the items of the inner lists one after the
    other. *)
Lemma for_each_nested {W A B} (l : list A) (g : A → list B) (body : B → M W unit) :
  for_each l (λ x, for_each (g x) body) = for_each (l ≫= g) body.
Proof.
  induction l as [|x l IH]; [done|].
  rewrite bind_cons, for_each_app, <- IH. done.
Qed.

Section VisibilityFacts.
Context (sky : Skyfield) (facility : FacilityRegistry).

Lemma get_visibility_all_sites self start_time end_time interval :
  get_visibility sky facility self start_time end_time interval =
  (planets ← lift (load sky "de421.bsp");
   ts ← lift (load_timescale sky);
   _ ← for_each (all_sites facility)
         (visit_site sky planets ts self start_time interval);
   mret PyNone).
Proof.
  unfold get_visibility, all_sites.
  destruct (load sky "de421.bsp") as [e|planets]; [done|].
  destruct (load_timescale sky) as [e|ts]; [done|].
  unfold lift. unfold mbind at 1 2 4 5. unfold M_bind at 1 2 4 5.
  by rewrite (for_each_nested (get_service_classes facility)
                (get_observing_sites facility)).
Qed.

(** A site visit prints its four lines and succeeds, or fails before
    printing anything. *)
Lemma visit_site_cases planets ts self start_time interval item :
  (∃ r, visit_site sky planets ts self start_time interval item =
        (site_lines r, inr tt))
  ∨ (∃ e, visit_site sky planets ts self start_time interval item =
          ([], inl e)).
Proof.
  destruct item as [site details].
  unfold visit_site, observe_and_print, mbind, M_bind, lift, print.
  destruct (earth_topos sky planets _ _) as [e|observing_site];
    [by right; exists e|].
  destruct (time_samples start_time interval) as [e|samples];
    [by right; exists e|].
  destruct (utc sky ts samples) as [e|time_range]; [by right; exists e|].
  destruct (observe sky observing_site time_range _) as [e|astrometric];
    [by right; exists e|].
  destruct (apparent sky astrometric) as [e|apparent_position];
    [by right; exists e|].
  destruct (altaz sky apparent_position) as [e|[[alt az] distance]];
    [by right; exists e|].
  left. by exists (alt, az, distance).
Qed.



End VisibilityFacts.

(** ** get_visibility *)







(** C8, as the code has it: the interval is never tested. With interval = 0
    the sampling of a site visit fails with the [ValueError] of [range], so
    [get_visibility] fails with it, having printed nothing, once the
    ephemeris and the first registered site are set up; with a negative
    interval the sampling raises nothing and gives an empty list of samples,
    which the site visit hands to [ts.utc]; and with no site registered the
    call completes normally whatever the interval. *)
Theorem non_positive_interval (sky : Skyfield) (facility : FacilityRegistry)
    (self : Target) (start_time end_time : datetime) (interval : Z) :
  interval ≤ 0 →
  (interval = 0 →
     time_samples start_time interval = inl range_step_zero
     ∧ ∀ planets ts site details rest observing_site,
         load sky "de421.bsp" = inr planets → load_timescale sky = inr ts →
         all_sites facility = (site, details) :: rest →
         earth_topos sky planets (details_get details "latitude")
                     (details_get details "longitude") = inr observing_site →
         get_visibility sky facility self start_time end_time interval =
         ([], inl range_step_zero))
  ∧ (interval < 0 →
     time_samples start_time interval = inr []
     ∧ ∀ planets ts site details,
         visit_site sky planets ts self start_time interval (site, details) =
         (observing_site ← lift (earth_topos sky planets
                                   (details_get details "latitude")
                                   (details_get details "longitude"));
          time_range ← lift (utc sky ts []);
          observe_and_print sky observing_site
            (get_object_instance_for_type self) time_range))
  ∧ (all_sites facility = [] →
     ∀ planets ts,
       load sky "de421.bsp" = inr planets → load_timescale sky = inr ts →
       get_visibility sky facility self start_time end_time interval =
       ([], inr PyNone)).
Proof.
  intros _. split_and!.
  - intros ->. split; [apply time_samples_zero|].
    intros planets ts site details rest observing_site Hload Hts Hsites Htopos.
    rewrite get_visibility_all_sites, Hload, Hts, Hsites.
    unfold lift, mbind, M_bind. simpl.
    unfold visit_site, lift, mbind, M_bind. by rewrite Htopos.
  - intros Hneg. split; [by apply time_samples_negative|].
    intros planets ts site details.
    unfold visit_site. rewrite time_samples_negative by done.
    unfold mbind, M_bind, lift.
    destruct (earth_topos sky planets _ _) as [e|observing_site]; [done|].
    by case_match.
  - intros Hsites planets ts Hload Hts.
    rewrite get_visibility_all_sites, Hload, Hts, Hsites. reflexivity.
Qed.

Lemma non_positive_interval_witness :
  0 ≤ 0
  ∧ get_visibility stub_sky one_site kelt16b new_year_2024 one_hour_later 0 =
    ([], inl range_step_zero).
Proof.
  split; [lia|].
  destruct (non_positive_interval stub_sky one_site kelt16b
              new_year_2024 one_hour_later 0) as [Hzero _]; [lia|].
  destruct (Hzero eq_refl) as [_ Hfail].
  by eapply (Hfail tt tt).
Defined.

(** C8, the claim as written fails: a negative interval is not reported, the
    sampling just yields no sample; and with no facility registered a zero
    or negative interval goes unnoticed. *)
Lemma negative_interval_is_not_reported :
  time_samples new_year_2024 (-10) = inr []
  ∧ get_visibility stub_sky no_facility kelt16b
      new_year_2024 one_hour_later (-10) = ([], inr PyNone)
  ∧ get_visibility stub_sky no_facility kelt16b
      new_year_2024 one_hour_later 0 = ([], inr PyNone).
Proof. by split_and!. Qed.

(** C9: [get_visibility] does not depend on end_time: two calls with the
    same skyfield, registry, target, start_time and interval print the same
    lines and end the same way whatever their end_time. *)
Theorem get_visibility_ignores_end_time (sky : Skyfield)
    (facility : FacilityRegistry) (self : Target)
    (start_time end_time end_time' : datetime) (interval : Z) :
  get_visibility sky facility self start_time end_time interval =
  get_visibility sky facility self start_time end_time' interval.
Proof. reflexivity. Qed.

(** * Further properties *)

(** ** as_dict, entry by entry *)

(** X1: the whole result of [as_dict], for each of the three cases of the
    type: thirteen entries for a sidereal target, fourteen for a
    non-sidereal one, four for any other, each holding the record's value of
    the column, in the order of the class body. *)
Theorem as_dict_entries (self : Target) :
  (type self = "SIDEREAL" ∧ as_dict self =
     [("identifier", PyStr (identifier self));
      ("name", PyStr (name self));
      ("type", PyStr (type self));
      ("designation", PyStr (designation self));
      ("ra", py_of_float (ra self));
      ("dec", py_of_float (dec self));
      ("epoch", py_of_float (epoch self));
      ("pm_ra", py_of_float (pm_ra self));
      ("pm_dec", py_of_float (pm_dec self));
      ("galactic_lng", py_of_float (galactic_lng self));
      ("galactic_lat", py_of_float (galactic_lat self));
      ("distance", py_of_float (distance self));
      ("distance_err", py_of_float (distance_err self))])
  ∨ (type self = "NON_SIDEREAL" ∧ as_dict self =
     [("identifier", PyStr (identifier self));
      ("name", PyStr (name self));
      ("type", PyStr (type self));
      ("designation", PyStr (designation self));
      ("mean_anomaly", py_of_float (mean_anomaly self));
      ("arg_of_perihelion", py_of_float (arg_of_perihelion self));
      ("lng_asc_node", py_of_float (lng_asc_node self));
      ("inclination", py_of_float (inclination self));
      ("mean_daily_motion", py_of_float (mean_daily_motion self));
      ("semimajor_axis", py_of_float (semimajor_axis self));
      ("ephemeris_period", py_of_float (ephemeris_period self));
      ("ephemeris_period_err", py_of_float (ephemeris_period_err self));
      ("ephemeris_epoch", py_of_float (ephemeris_epoch self));
      ("ephemeris_epoch_err", py_of_float (ephemeris_epoch_err self))])
  ∨ (type self ≠ "SIDEREAL" ∧ type self ≠ "NON_SIDEREAL" ∧ as_dict self =
     [("identifier", PyStr (identifier self));
      ("name", PyStr (name self));
      ("type", PyStr (type self));
      ("designation", PyStr (designation self))]).
Proof.
  unfold as_dict.
  destruct (fields_for_type_cases (type self)) as [[? ->]|[[? ->]|(? & ? & ->)]].
  - left. by split.
  - right; left. by split.
  - right; right. by split_and!.
Qed.

(** The four identity entries are in every result. *)
Lemma as_dict_identity (self : Target) :
  dict_get (as_dict self) "identifier" = Some (PyStr (identifier self))
  ∧ dict_get (as_dict self) "name" = Some (PyStr (name self))
  ∧ dict_get (as_dict self) "type" = Some (PyStr (type self))
  ∧ dict_get (as_dict self) "designation" = Some (PyStr (designation self)).
Proof.
  unfold as_dict.
  destruct (fields_for_type_cases (type self))
    as [[_ ->]|[[_ ->]|(_ & _ & ->)]]; by split_and!.
Qed.

(** X2: [as_dict] reads nothing but the type and the columns listed for it:
    two records with the same type that agree on every listed column have
    the same projection, whatever their primary key, their timestamps and
    their other columns are. *)
Theorem as_dict_reads_listed_columns_only (self other : Target) :
  type self = type other →
  (∀ f, f ∈ concrete_fields → fname f ∈ fields_for_type (type self) →
        value_from_object f self = value_from_object f other) →
  as_dict self = as_dict other.
Proof.
  intros Hty Hcols. unfold as_dict. rewrite <- Hty, !model_to_dict_entries.
  apply list_fmap_ext. intros i f Hf.
  apply list_elem_of_lookup_2, list_elem_of_filter in Hf as [Hkept Hin].
  apply kept_spec in Hkept as [_ Hlisted].
  unfold entry. f_equal. by apply Hcols.
Qed.

Lemma as_dict_reads_listed_columns_only_witness :
  type kelt16b = type kelt16b_remeasured
  ∧ parallax kelt16b ≠ parallax kelt16b_remeasured
  ∧ id kelt16b ≠ id kelt16b_remeasured
  ∧ as_dict kelt16b = as_dict kelt16b_remeasured.
Proof.
  split; [reflexivity|]. split; [discriminate|]. split; [discriminate|].
  apply as_dict_reads_listed_columns_only; [reflexivity|].
  intros f Hf Hlisted.
  repeat (apply elem_of_cons in Hf as [->|Hf]; [reflexivity || (exfalso; revert Hlisted; apply (bool_decide_unpack _); by vm_compute)|]).
  by apply elem_of_nil in Hf.
Defined.

(** X3: the projection tells the identity fields apart: two records with the
    same [as_dict] have the same identifier, name, type and designation. *)
Theorem as_dict_determines_identity (self other : Target) :
  as_dict self = as_dict other →
  identifier self = identifier other
  ∧ name self = name other
  ∧ type self = type other
  ∧ designation self = designation other.
Proof.
  intros Heq.
  destruct (as_dict_identity self) as (H1 & H2 & H3 & H4).
  destruct (as_dict_identity other) as (H1' & H2' & H3' & H4').
  rewrite Heq in H1, H2, H3, H4. split_and!; congruence.
Qed.

Lemma as_dict_determines_identity_witness :
  as_dict kelt16b = as_dict kelt16b_remeasured
  ∧ identifier kelt16b = identifier kelt16b_remeasured.
Proof.
  split; [reflexivity|].
  by apply (as_dict_determines_identity kelt16b kelt16b_remeasured).
Defined.

(** ** Loops that stop at the first failure *)

Lemma for_each_all_ok {W A R} (body : A → M W unit) (lines : R → list W)
    (l : list A) (rows : list R) :
  Forall2 (λ x r, body x = (lines r, inr tt)) l rows →
  for_each l body = (rows ≫= lines, inr tt).
Proof.
  induction 1 as [|x r l rows Hx _ IH]; [done|].
  simpl. rewrite Hx, IH. done.
Qed.

Lemma for_each_first_failure {W A R} (body : A → M W unit) (lines : R → list W)
    (done_ rest : list A) (item : A) (rows : list R) (out : list W) (e : exn) :
  Forall2 (λ x r, body x = (lines r, inr tt)) done_ rows →
  body item = (out, inl e) →
  for_each (done_ ++ item :: rest) body = ((rows ≫= lines) ++ out, inl e).
Proof.
  intros Hdone Hitem.
  induction Hdone as [|x r l rows Hx _ IH]; simpl.
  - by rewrite Hitem.
  - rewrite Hx, IH. unfold mbind at 1, M_bind. by rewrite app_assoc.
Qed.

Lemma for_each_ok_iff {W A} (body : A → M W unit) (l : list A) :
  outcome (for_each l body) = inr tt ↔
  Forall (λ x, outcome (body x) = inr tt) l.
Proof.
  induction l as [|x l IH]; simpl.
  - split; [constructor | done].
  - rewrite Forall_cons, <- IH. unfold outcome, mbind, M_bind.
    destruct (body x) as [out [e|[]]]; simpl.
    + split; [done | by intros [? _]].
    + destruct (for_each l body) as [out' r]. simpl. tauto.
Qed.

Lemma for_each_ext {W A} (body body' : A → M W unit) (l : list A) :
  (∀ x, x ∈ l → body x = body' x) → for_each l body = for_each l body'.
Proof.
  induction l as [|x l IH]; intros Hext; [done|].
  simpl. rewrite (Hext x) by left. rewrite IH; [done|].
  intros y Hy. apply Hext. by right.
Qed.

Lemma for_each_fmap {W A B} (f : A → B) (body : B → M W unit) (l : list A) :
  for_each (f <$> l) body = for_each l (body ∘ f).
Proof. induction l as [|x l IH]; [done|]. rewrite fmap_cons. simpl. by rewrite IH. Qed.

(** ** get_visibility, beyond the claims *)

(** X4: since the model selection yields [None] for every target, the whole
    visibility computation is the same for any two targets: what it prints
    and how it ends depend on skyfield, the registry, start_time and
    interval only. *)
Theorem get_visibility_ignores_the_target (sky : Skyfield)
    (facility : FacilityRegistry) (self other : Target)
    (start_time end_time : datetime) (interval : Z) :
  get_visibility sky facility self start_time end_time interval =
  get_visibility sky facility other start_time end_time interval.
Proof. reflexivity. Qed.

(** X5: when the ephemeris cannot be loaded, or the ephemeris loads and the
    timescale cannot, the call fails with that very exception before it
    looks at any facility, and prints nothing. *)
Theorem get_visibility_fails_fast (sky : Skyfield)
    (facility : FacilityRegistry) (self : Target)
    (start_time end_time : datetime) (interval : Z) (e : exn) :
  load sky "de421.bsp" = inl e
  ∨ (∃ planets, load sky "de421.bsp" = inr planets ∧ load_timescale sky = inl e) →
  get_visibility sky facility self start_time end_time interval = ([], inl e).
Proof.
  unfold get_visibility. intros [Hload|(planets & Hload & Hts)].
  - by rewrite Hload.
  - by rewrite Hload, Hts.
Qed.

Lemma get_visibility_fails_fast_witness :
  get_visibility no_ephemeris_sky three_sites kelt16b
    new_year_2024 one_hour_later 10 =
  ([], inl (Exception "OSError" "cannot download de421.bsp")).
Proof.
  apply get_visibility_fails_fast. by left.
Defined.

(** X6: the first site visit that fails ends the call: the exception of that
    visit is the result, the lines of the sites completed before it stay on
    the console, and the sites after it are never visited. *)
Theorem get_visibility_stops_at_first_failure (sky : Skyfield)
    (facility : FacilityRegistry) (self : Target)
    (start_time end_time : datetime) (interval : Z)
    (planets : Ephemeris sky) (ts : Timescale sky)
    (completed rest : list (string * site_details))
    (item : string * site_details)
    (rows : list (Angle sky * Angle sky * Distance sky)) (e : exn) :
  load sky "de421.bsp" = inr planets →
  load_timescale sky = inr ts →
  all_sites facility = completed ++ item :: rest →
  Forall2 (λ site r, visit_site sky planets ts self start_time interval site =
                     (site_lines r, inr tt)) completed rows →
  outcome (visit_site sky planets ts self start_time interval item) = inl e →
  get_visibility sky facility self start_time end_time interval =
  (rows ≫= site_lines, inl e).
Proof.
  intros Hload Hts Hsites Hcompleted Hitem.
  destruct (visit_site_cases sky planets ts self start_time interval item)
    as [[r Hr]|(e' & Hr)]; rewrite Hr in Hitem; unfold outcome in Hitem;
    simpl in Hitem; simplify_eq. rename Hr into Hitem.
  rewrite get_visibility_all_sites, Hload, Hts, Hsites.
  unfold lift. unfold mbind at 1 2, M_bind at 1 2. simpl.
  rewrite (for_each_first_failure _ site_lines completed rest item rows [] e)
    by done.
  unfold mbind at 1, M_bind. by rewrite !app_nil_r.
Qed.

Lemma get_visibility_stops_at_first_failure_witness :
  get_visibility strict_sky three_sites kelt16b
    new_year_2024 one_hour_later 20 =
  ([@PrintAngle strict_sky [45; 45; 45];
    @PrintAngle strict_sky [180; 180; 180];
    @PrintDistance strict_sky [1; 1; 1];
    PrintBlank],
   inl (Exception "TypeError" "missing coordinate")).
Proof.
  apply (get_visibility_stops_at_first_failure strict_sky three_sites kelt16b
           new_year_2024 one_hour_later 20 tt tt
           [("Mount Hopkins", [("latitude", 31.6%float); ("longitude", (-110.6)%float)])]
           [("Cerro Pachon", [("latitude", (-30.25)%float); ("longitude", (-70.75)%float)])]
           ("Unsurveyed", [("longitude", 17.0%float)])
           [([45; 45; 45], [180; 180; 180], [1; 1; 1])]);
    try reflexivity.
  repeat constructor.
Defined.

(** X7: once the ephemeris and the timescale are loaded, the call completes
    exactly when every site visit of every facility completes. *)
Theorem get_visibility_completes_iff (sky : Skyfield)
    (facility : FacilityRegistry) (self : Target)
    (start_time end_time : datetime) (interval : Z)
    (planets : Ephemeris sky) (ts : Timescale sky) :
  load sky "de421.bsp" = inr planets →
  load_timescale sky = inr ts →
  (outcome (get_visibility sky facility self start_time end_time interval) =
     inr PyNone
   ↔ Forall (λ site, outcome (visit_site sky planets ts self start_time
                                interval site) = inr tt)
            (all_sites facility)).
Proof.
  intros Hload Hts.
  rewrite get_visibility_all_sites, Hload, Hts, <- for_each_ok_iff.
  unfold lift. unfold mbind at 1 2, M_bind at 1 2. simpl.
  destruct (for_each (all_sites facility) _) as [out [e|[]]];
    unfold outcome, mbind, M_bind; simpl; split; done.
Qed.

Lemma get_visibility_completes_iff_witness :
  Forall (λ site, outcome (visit_site stub_sky tt tt kelt16b new_year_2024
                             10 site) = inr tt)
         (all_sites three_sites).
Proof.
  apply (get_visibility_completes_iff stub_sky three_sites kelt16b
           new_year_2024 one_hour_later 10 tt tt); reflexivity.
Defined.

(** ** The samples, by position *)

(** X8: for a positive interval and a start_time whose last sample is not
    after [datetime.max], the sample at position i (from 0) is
    start_time + i * interval minutes, and there is one exactly when
    i * interval < 60; so the samples start at start_time, go up, and all
    lie in the hour that begins at start_time; an interval of 60 minutes or
    more leaves the single sample start_time. *)
Theorem time_samples_by_position (start_time interval : Z) :
  0 < interval → valid_datetime start_time →
  start_time + timedelta_minutes (59 / interval * interval) ≤ datetime_max →
  ∃ samples : list datetime,
    time_samples start_time interval = inr samples
    ∧ (∀ (i : nat) (d : datetime),
         samples !! i = Some d ↔
         Z.of_nat i * interval < 60
         ∧ d = start_time + timedelta_minutes (Z.of_nat i * interval))
    ∧ (∀ d, d ∈ samples →
            start_time ≤ d < start_time + timedelta_minutes 60
            ∧ valid_datetime d)
    ∧ (∀ (i j : nat) (d d' : datetime),
         samples !! i = Some d → samples !! j = Some d' →
         (i < j)%nat → d < d')
    ∧ (60 ≤ interval → samples = [start_time]).
Proof.
  intros Hpos [Hlo _] Hhi.
  assert (Hat : ∀ (i : nat) (d : datetime),
    ((λ k, start_time + timedelta_minutes (k * interval)) <$>
       seqZ 0 (59 / interval + 1)) !! i = Some d ↔
    Z.of_nat i * interval < 60
    ∧ d = start_time + timedelta_minutes (Z.of_nat i * interval)).
  { intros i d. rewrite list_lookup_fmap, fmap_Some.
    setoid_rewrite lookup_seqZ.
    pose proof (multiple_below 60 interval (Z.of_nat i) Hpos) as Hm.
    change (60 - 1) with 59 in Hm. split.
    - intros (k & [-> Hlt] & ->). split; [by apply Hm | done].
    - intros [Hlt ->]. exists (Z.of_nat i). split; [|done].
      split; [done | by apply Hm]. }
  eexists. split; [by apply time_samples_in_range|].
  split_and!.
  - exact Hat.
  - intros d Hd. apply list_elem_of_lookup in Hd as [i Hi].
    apply Hat in Hi as [Hlt ->].
    pose proof (multiple_below 60 interval (Z.of_nat i) Hpos) as Hm.
    change (60 - 1) with 59 in Hm. apply Hm in Hlt.
    unfold valid_datetime, timedelta_minutes in *. nia.
  - intros i j d d' Hi Hj Hij.
    apply Hat in Hi as [_ ->]. apply Hat in Hj as [_ ->].
    unfold timedelta_minutes. nia.
  - intros Hbig.
    replace (59 / interval) with 0 by (symmetry; apply Z.div_small; lia).
    rewrite seqZ_cons, seqZ_nil by lia. simpl. f_equal.
    unfold timedelta_minutes. lia.
Qed.

Lemma time_samples_by_position_witness :
  0 < 90 ∧ valid_datetime datetime_max
  ∧ time_samples datetime_max 90 = inr [datetime_max].
Proof.
  assert (Hvalid : valid_datetime datetime_max) by (by vm_compute).
  split; [lia|]. split; [exact Hvalid|].
  destruct (time_samples_by_position datetime_max 90)
    as (samples & Hts & _ & _ & _ & Hone); [lia | exact Hvalid | by vm_compute |].
  rewrite Hts, Hone by lia. reflexivity.
Defined.

(** ** The registry *)

Lemma visit_site_ignores_the_name sky planets ts self start_time interval
    (item : string * site_details) :
  visit_site sky planets ts self start_time interval item =
  visit_site sky planets ts self start_time interval ("", item.2).
Proof. by destruct item. Qed.

(** X9: the names of the facilities and of the sites play no part: two
    registries whose sites have, in order, the same coordinates give the
    same printed lines and the same result, so nothing in the output tells
    which site a block of lines belongs to. *)
Theorem get_visibility_ignores_site_names (sky : Skyfield)
    (facility facility' : FacilityRegistry) (self : Target)
    (start_time end_time : datetime) (interval : Z) :
  (all_sites facility).*2 = (all_sites facility').*2 →
  get_visibility sky facility self start_time end_time interval =
  get_visibility sky facility' self start_time end_time interval.
Proof.
  intros Hsame. rewrite !get_visibility_all_sites.
  destruct (load sky "de421.bsp") as [e|planets]; [done|].
  destruct (load_timescale sky) as [e|ts]; [done|].
  unfold lift. unfold mbind at 1 2 4 5, M_bind at 1 2 4 5.
  assert (Hloop : ∀ l : list (string * site_details),
    for_each l (visit_site sky planets ts self start_time interval) =
    for_each (l.*2) (λ d, visit_site sky planets ts self start_time interval ("", d))).
  { intros l. rewrite for_each_fmap. apply for_each_ext.
    intros item _. apply visit_site_ignores_the_name. }
  by rewrite (Hloop (all_sites facility)), (Hloop (all_sites facility')), Hsame.
Qed.

Lemma get_visibility_ignores_site_names_witness :
  all_sites one_site ≠ all_sites one_site_renamed
  ∧ get_visibility stub_sky one_site kelt16b new_year_2024 one_hour_later 10 =
    get_visibility stub_sky one_site_renamed kelt16b new_year_2024 one_hour_later 10.
Proof.
  split; [discriminate|].
  by apply get_visibility_ignores_site_names.
Defined.

Lemma all_sites_app (first second : list string)
    (sites : string → list (string * site_details)) :
  all_sites {| get_service_classes := first ++ second;
               get_observing_sites := sites |} =
  all_sites {| get_service_classes := first; get_observing_sites := sites |}
  ++ all_sites {| get_service_classes := second; get_observing_sites := sites |}.
Proof. unfold all_sites. simpl. apply bind_app. Qed.

(** X10: facilities are processed one after the other: when the call
    completes for the facilities [first], the call for [first ++ second]
    prints the same lines followed by those of the call for [second], and
    ends as the call for [second] does. *)
Theorem get_visibility_facilities_in_sequence (sky : Skyfield)
    (first second : list string)
    (sites : string → list (string * site_details)) (self : Target)
    (start_time end_time : datetime) (interval : Z)
    (out : list (printed sky)) :
  get_visibility sky
    {| get_service_classes := first; get_observing_sites := sites |}
    self start_time end_time interval = (out, inr PyNone) →
  get_visibility sky
    {| get_service_classes := first ++ second; get_observing_sites := sites |}
    self start_time end_time interval =
  (out ++ stdout (get_visibility sky
                    {| get_service_classes := second; get_observing_sites := sites |}
                    self start_time end_time interval),
   outcome (get_visibility sky
              {| get_service_classes := second; get_observing_sites := sites |}
              self start_time end_time interval)).
Proof.
  rewrite !get_visibility_all_sites, all_sites_app.
  generalize
    (all_sites {| get_service_classes := first; get_observing_sites := sites |})
    (all_sites {| get_service_classes := second; get_observing_sites := sites |}).
  intros l1 l2.
  destruct (load sky "de421.bsp") as [e|planets]; [done|].
  destruct (load_timescale sky) as [e|ts]; [done|].
  pose proof (for_each_app l1 l2
                (visit_site sky planets ts self start_time interval)) as Happ.
  unfold lift, stdout, outcome, mbind, M_bind, mret, M_ret in *. simpl in *.
  rewrite Happ.
  destruct (for_each l1 _) as [out1 [e|[]]]; simpl; [done|].
  rewrite app_nil_r. intros [= <-].
  destruct (for_each l2 _) as [out2 [e|[]]]; simpl;
    by rewrite ?app_nil_r, ?app_assoc.
Qed.

Lemma get_visibility_facilities_in_sequence_witness :
  stdout (get_visibility stub_sky
            {| get_service_classes := ["LCO"] ++ ["Gemini"];
               get_observing_sites := get_observing_sites three_sites |}
            kelt16b new_year_2024 one_hour_later 30) =
  [@PrintAngle stub_sky [45; 45]; @PrintAngle stub_sky [180; 180];
   @PrintDistance stub_sky [1; 1]; PrintBlank;
   @PrintAngle stub_sky [45; 45]; @PrintAngle stub_sky [180; 180];
   @PrintDistance stub_sky [1; 1]; PrintBlank]
  ++ stdout (get_visibility stub_sky
               {| get_service_classes := ["Gemini"];
                  get_observing_sites := get_observing_sites three_sites |}
               kelt16b new_year_2024 one_hour_later 30).
Proof.
  rewrite (get_visibility_facilities_in_sequence stub_sky ["LCO"] ["Gemini"]
             (get_observing_sites three_sites) kelt16b
             new_year_2024 one_hour_later 30 _ eq_refl).
  reflexivity.
Defined.
